(** * RedisGateway: connection establishment with bounded retry, and the
      typed "get with default" accessor

    Shallow embedding of [action-system/gateways/redis_db_gateway.py].

    The gateway is glue over the redis-py client, so what has to be written
    out is Python's control flow: exception classes matched by [except]
    clauses through subclassing, [raise ... from ...], the [for] loop that
    retries until [break], and the [finally: return] of [get].  The remote
    store is an explicit environment ([server]); everything the gateway does
    to the outside world (commands sent, sleeps, printed lines) is recorded
    in a [world]. *)

From stdpp Require Import base option list strings pretty gmap.
From Stdlib Require Import ZArith Lia Ascii.

Set Warnings "-register-all".

Local Open Scope Z_scope.
Local Open Scope string_scope.
Local Open Scope list_scope.

(** ** Python values *)

(** The values that flow through the gateway: [None], booleans, integers
    and (decoded) strings.  The client is created with
    [decode_responses=True], so what it reads is a [str] or [None]. *)
Inductive pyval : Type :=
  | PyNone
  | PyBool (b : bool)
  | PyInt (z : Z)
  | PyStr (s : string).

#[global] Instance pyval_eq_dec : EqDecision pyval.
Proof. solve_decision. Defined.

(** [bool(v)], as used by [if v], [a or b]. *)
Definition truthy (v : pyval) : bool :=
  match v with
  | PyNone => false
  | PyBool b => b
  | PyInt z => negb (Z.eqb z 0)
  | PyStr s => negb (String.eqb s "")
  end.

(** [a or b] *)
Definition py_or (a b : pyval) : pyval := if truthy a then a else b.

(** [str(v)] *)
Definition str (v : pyval) : string :=
  match v with
  | PyNone => "None"
  | PyBool true => "True"
  | PyBool false => "False"
  | PyInt z => pretty z
  | PyStr s => s
  end.

(** ** Exceptions *)

(** The classes the gateway names, and the builtin ones its coercions
    raise.  The redis ones are those of redis-py's [redis/exceptions.py]. *)
Inductive exc_class : Type :=
  | BaseException
  | Exception
  | TypeError
  | ValueError
  | RedisError
  | ConnectionError
  | TimeoutError
  | AuthenticationError
  | BusyLoadingError
  | ResponseError.

#[global] Instance exc_class_eq_dec : EqDecision exc_class.
Proof. solve_decision. Defined.

(** The direct base class.  redis-py declares
    [class RedisError(Exception)], [class ConnectionError(RedisError)],
    [class TimeoutError(RedisError)],
    [class AuthenticationError(ConnectionError)],
    [class BusyLoadingError(ConnectionError)] and
    [class ResponseError(RedisError)]. *)
Definition base_class (c : exc_class) : option exc_class :=
  match c with
  | BaseException => None
  | Exception => Some BaseException
  | TypeError | ValueError | RedisError => Some Exception
  | ConnectionError | TimeoutError | ResponseError => Some RedisError
  | AuthenticationError | BusyLoadingError => Some ConnectionError
  end.

(** The chain of classes from [c] up to [BaseException]; the hierarchy is
    five levels deep. *)
Fixpoint ancestors (depth : nat) (c : exc_class) : list exc_class :=
  match depth with
  | O => []
  | S d => c :: match base_class c with
                | Some b => ancestors d b
                | None => []
                end
  end.

Definition mro (c : exc_class) : list exc_class := ancestors 5 c.

Definition issubclass (c d : exc_class) : bool := bool_decide (d ∈ mro c).

(** An exception instance: its class, its message ([None] for a class
    raised without arguments) and its [__cause__]. *)
Inductive exn : Type :=
  | Exn (cls : exc_class) (msg : option string) (cause : option exn).

Definition exn_class (e : exn) : exc_class := let 'Exn c _ _ := e in c.
Definition exn_msg (e : exn) : option string := let 'Exn _ m _ := e in m.
Definition exn_cause (e : exn) : option exn := let 'Exn _ _ c := e in c.

(** [isinstance(e, d)], the test an [except d:] clause makes. *)
Definition isinstance (e : exn) (d : exc_class) : bool :=
  issubclass (exn_class e) d.

(** ** Builtin coercions *)

Inductive result (A : Type) : Type :=
  | Ok (a : A)
  | Raise (e : exn).
Arguments Ok {A} a.
Arguments Raise {A} e.

Definition is_space (a : ascii) : bool :=
  let n := nat_of_ascii a in
  (Nat.leb 9 n && Nat.leb n 13) || Nat.eqb n 32.

Fixpoint lstrip (s : string) : string :=
  match s with
  | String a s' => if is_space a then lstrip s' else s
  | EmptyString => s
  end.

Definition strip (s : string) : string :=
  String.rev (lstrip (String.rev (lstrip s))).

Definition is_digit (a : ascii) : bool :=
  let n := nat_of_ascii a in Nat.leb 48 n && Nat.leb n 57.

Definition digit_of (a : ascii) : option Z :=
  if is_digit a then Some (Z.of_nat (nat_of_ascii a) - 48) else None.

(** Decimal digits, a single underscore allowed between two digits.
    [after_digit] tells whether the previous character was a digit. *)
Fixpoint digits (acc : Z) (after_digit : bool) (s : string) : option Z :=
  match s with
  | EmptyString => if after_digit then Some acc else None
  | String a s' =>
      match digit_of a with
      | Some d => digits (10 * acc + d) true s'
      | None =>
          if Ascii.eqb a "_"%char && after_digit
          then match s' with
               | String b _ => if is_digit b then digits acc false s' else None
               | EmptyString => None
               end
          else None
      end
  end.

(** The integer a base-10 literal denotes: surrounding white space, an
    optional sign, digits. *)
Definition int_literal (s : string) : option Z :=
  match strip s with
  | String "-" s' => Z.opp <$> digits 0 false s'
  | String "+" s' => digits 0 false s'
  | s' => digits 0 false s'
  end.

(** A callable used as a coercion: what calling it on one argument does,
    and what [str] of the callable itself is. *)
Record callable : Type := Callable {
  call : pyval -> result pyval;
  repr : string
}.

(** [int(v)] *)
Definition int (v : pyval) : result pyval :=
  match v with
  | PyNone =>
      Raise (Exn TypeError
        (Some "int() argument must be a string, a bytes-like object or a real number, not 'NoneType'")
        None)
  | PyBool b => Ok (PyInt (if b then 1 else 0))
  | PyInt z => Ok (PyInt z)
  | PyStr s =>
      match int_literal s with
      | Some z => Ok (PyInt z)
      | None =>
          Raise (Exn ValueError
            (Some ("invalid literal for int() with base 10: '" +:+ s +:+ "'")) None)
      end
  end.

(** The builtins [int] and [str] passed as [map_type]; [str] never
    raises. *)
Definition int_type : callable := Callable int "<class 'int'>".
Definition str_type : callable := Callable (fun v => Ok (PyStr (str v))) "<class 'str'>".

(** ** The outside world *)

(** What the gateway does that can be observed from outside. *)
Inductive event : Type :=
  | Print (line : string)
  | Echo (payload : string)
  | Sleep (seconds : Z)
  | Get (key : string).

#[global] Instance event_eq_dec : EqDecision event.
Proof. solve_decision. Defined.

(** [history] is chronological; [echoes] counts the ECHO commands sent so
    far (the index of the next liveness probe). *)
Record world : Type := World {
  history : list event;
  echoes : nat
}.

Definition boot : world := World [] 0.

(** The remote store as the gateway meets it: how it answers the n-th ECHO
    ([None]: it answers; [Some e]: the client raises [e]), the keys it
    holds, and whether a read goes through. *)
Record server : Type := Server {
  echo_fault : nat -> option exn;
  read_fault : option exn;
  data : gmap string string
}.

(** ** Computations: world passing with exceptions *)

Definition M (A : Type) : Type := world -> result A * world.

Definition ret {A} (a : A) : M A := fun w => (Ok a, w).

Definition bind {A B} (m : M A) (k : A -> M B) : M B :=
  fun w => match m w with
           | (Ok a, w') => k a w'
           | (Raise e, w') => (Raise e, w')
           end.

Definition raise {A} (e : exn) : M A := fun w => (Raise e, w).

Definition lift {A} (r : result A) : M A := fun w => (r, w).

Definition emit (ev : event) : M unit :=
  fun w => (Ok tt, World (history w ++ [ev]) (echoes w)).

Declare Scope py_scope.
Delimit Scope py_scope with py.
Notation "x <- m ;; k" := (bind m (fun x => k))
  (at level 100, m at next level, right associativity) : py_scope.
Notation "m ;; k" := (bind m (fun _ => k))
  (at level 100, right associativity) : py_scope.
Local Open Scope py_scope.

(** One handler of a [try] statement: [except cls as e: body]. *)
Definition handler (A : Type) : Type := exc_class * (exn -> M A).

(** The first clause whose class the exception is an instance of. *)
Fixpoint select {A} (hs : list (handler A)) (e : exn) : option (M A) :=
  match hs with
  | [] => None
  | (c, h) :: hs' => if isinstance e c then Some (h e) else select hs' e
  end.

(** [try: body / except ...: ... / else: orelse].  An exception no clause
    matches propagates; exceptions of a handler or of [orelse] are not
    handled here. *)
Definition try_except {A B} (body : M A) (hs : list (handler B))
    (orelse : A -> M B) : M B :=
  fun w => match body w with
           | (Ok a, w') => orelse a w'
           | (Raise e, w') =>
               match select hs e with
               | Some h => h w'
               | None => (Raise e, w')
               end
           end.

(** [try: body / finally: return v].  The [return] of the [finally] block
    discards whatever was pending, a result or an exception in flight;
    [fin] computes the returned value from the outcome of [body]. *)
Definition finally_return {A B} (body : M A) (fin : result A -> M B) : M B :=
  fun w => let '(r, w') := body w in fin r w'.

(** [raise e from cause] *)
Definition raise_from {A} (e : exn) (cause : option exn) : M A :=
  raise (Exn (exn_class e) (exn_msg e) cause).

(** What the body of a [for] loop tells the loop. *)
Inductive flow : Type := Next | Break.

(** [for x in xs: body], without an [else] clause. *)
Fixpoint for_each {A} (xs : list A) (body : A -> M flow) : M unit :=
  match xs with
  | [] => ret tt
  | x :: xs' =>
      f <- body x ;;
      match f with
      | Break => ret tt
      | Next => for_each xs' body
      end
  end.

(** [range(lo, hi)] *)
Definition range (lo hi : Z) : list Z :=
  (fun i => lo + Z.of_nat i) <$> seq 0 (Z.to_nat (hi - lo)).

(** [print(line)]; it returns [None]. *)
Definition print (line : string) : M pyval := emit (Print line) ;; ret PyNone.

(** [time.sleep(seconds)] *)
Definition sleep (seconds : Z) : M unit := emit (Sleep seconds).

(** ** The client *)

(** [redis.Redis(host, port, password=..., db=0, decode_responses=True)].
    Creating the client sends nothing: the connection is opened by the first
    command. *)
Record Redis : Type := MkRedis {
  r_host : pyval;
  r_port : pyval;
  r_password : pyval;
  r_db : Z;
  r_decode_responses : bool
}.

Section Gateway.

(** The store the gateway talks to. *)
Variable srv : server.

(** [r.echo(value)]: one round trip; the server's answer to the n-th ECHO
    decides whether it returns or raises. *)
Definition r_echo (r : Redis) (value : string) : M pyval :=
  fun w =>
    let w' := World (history w ++ [Echo value]) (S (echoes w)) in
    match echo_fault srv (echoes w) with
    | None => (Ok (PyStr value), w')
    | Some e => (Raise e, w')
    end.

(** [r.get(key)]: the stored string, [None] for an absent key, or the
    transport's exception. *)
Definition r_get (r : Redis) (key : string) : M pyval :=
  emit (Get key) ;;
  match read_fault srv with
  | Some e => raise e
  | None => ret (match data srv !! key with
                 | Some s => PyStr s
                 | None => PyNone
                 end)
  end.

(** ** class RedisGateway *)

Record RedisGateway : Type := MkRedisGateway {
  host : pyval;
  port : pyval;
  password : pyval;
  r : Redis
}.

(** [f'Cannot connect to {self.host}:{self.port}. Connection refused.'] *)
Definition refused_msg (self : RedisGateway) : string :=
  "Cannot connect to " +:+ str (host self) +:+ ":" +:+ str (port self)
    +:+ ". Connection refused.".

Definition auth_required : exn :=
  Exn AuthenticationError (Some "Authentication required. Provide password.") None.

Definition invalid_credentials : exn :=
  Exn ResponseError (Some "Invalid username-password pair or user is disabled") None.

Definition refused (self : RedisGateway) : exn :=
  Exn ConnectionError (Some (refused_msg self)) None.

(** [_test_connection]: the liveness probe.  The three clauses are tried in
    the order written; each re-raises [from None]. *)
Definition _test_connection (self : RedisGateway) : M unit :=
  try_except (r_echo (r self) "test_value")
    [ (AuthenticationError, fun _ => raise_from auth_required None);
      (ResponseError, fun _ => raise_from invalid_credentials None);
      (ConnectionError, fun _ => raise_from (refused self) None) ]
    (fun _ => ret tt).

(** The body of the loop of [_test_connection_with], at iteration [t].
    [raise redis.exceptions.ConnectionError from e] raises the class
    without arguments, with [e] as its cause. *)
Definition attempt (self : RedisGateway) (timeout t : Z) : M flow :=
  try_except (_test_connection self)
    [ (ConnectionError, fun e =>
         if t >=? timeout
         then raise_from (Exn ConnectionError None None) (Some e)
         else sleep 1 ;; ret Next) ]
    (fun _ => ret Break).

(** [_test_connection_with(timeout)]: the retry loop over
    [range(1, timeout+1)]. *)
Definition _test_connection_with (self : RedisGateway) (timeout : Z) : M unit :=
  for_each (range 1 (timeout + 1)) (attempt self timeout).

(** [__init__(host, port, password, timeout)].  A failing [int(port)]
    propagates; [print(...) or 6379] is 6379 because [print] returns
    [None]. *)
Definition __init__ (host port password : pyval) (timeout : Z) : M RedisGateway :=
  port' <- (if truthy port
            then lift (int port)
            else (p <- print "Choosing Redis default port: 6379" ;;
                  ret (py_or p (PyInt 6379)))) ;;
  let client := MkRedis host port' password 0 true in
  let self := MkRedisGateway host port' password client in
  _test_connection_with self timeout ;;
  ret self.

(** [__str__] *)
Definition __str__ (self : RedisGateway) : string :=
  "<RedisGateway instance connected to server " +:+ str (host self) +:+ ":"
    +:+ str (port self) +:+ ">".

(** [get(key, default, map_type)].  The local [value] is [None] unless the
    assignment in the [try] block completed; the [except TypeError] clause
    re-raises a [TypeError]; the [finally] block returns [value or default]
    whatever is pending. *)
Definition get (self : RedisGateway) (key : string) (default : pyval)
    (map_type : callable) : M pyval :=
  finally_return
    (try_except
       (raw <- r_get (r self) key ;; lift (call map_type raw))
       [ (TypeError, fun _ =>
            raise_from
              (Exn TypeError
                 (Some ("Value received from Redis db cannot be mapped to "
                          +:+ repr map_type))
                 None)
              None) ]
       (fun v => ret v))
    (fun pending =>
       let value := match pending with
                    | Ok v => v
                    | Raise _ => PyNone
                    end in
       ret (py_or value default)).

End Gateway.

(** ** Vocabulary of the statements *)

(** What a computation yields from a world, and the world it leaves. *)
Definition outcome {A} (m : M A) (w : world) : result A := fst (m w).
Definition after {A} (m : M A) (w : world) : world := snd (m w).

(** The world after one more ECHO, after one more second of sleep, after
    the notice about the default port. *)
Definition sent (w : world) : world :=
  World (history w ++ [Echo "test_value"]) (S (echoes w)).

Definition waited (w : world) : world :=
  World (history w ++ [Sleep 1]) (echoes w).

Definition noticed (w : world) : world :=
  World (history w ++ [Print "Choosing Redis default port: 6379"]) (echoes w).

(** How the probe classifies what the client raised, in the order of the
    [except] clauses of [_test_connection]. *)
Inductive condition : Type :=
  | Alive
  | AuthRequired
  | InvalidCredential
  | Refused
  | OtherFault.

Definition condition_of (o : option exn) : condition :=
  match o with
  | None => Alive
  | Some e =>
      if isinstance e AuthenticationError then AuthRequired
      else if isinstance e ResponseError then InvalidCredential
      else if isinstance e ConnectionError then Refused
      else OtherFault
  end.

(** The exception [_test_connection] lets out when the client raised [e]. *)
Definition reraised (self : RedisGateway) (e : exn) : exn :=
  match condition_of (Some e) with
  | AuthRequired => auth_required
  | InvalidCredential => invalid_credentials
  | Refused => refused self
  | _ => e
  end.

(** Measures of a history: probes sent, seconds slept, lines printed. *)
Definition probes (l : list event) : nat :=
  length (filter (fun ev => ev = Echo "test_value") l).

Fixpoint slept (l : list event) : Z :=
  match l with
  | [] => 0
  | Sleep s :: l' => s + slept l'
  | _ :: l' => slept l'
  end.

Definition prints (l : list event) : list string :=
  omap (fun ev => match ev with Print line => Some line | _ => None end) l.

(** What [n] refused attempts in a row leave in the history: a probe, and a
    second of sleep after each one but the last. *)
Fixpoint retry_trace (n : nat) : list event :=
  match n with
  | O => []
  | S n' =>
      Echo "test_value" ::
      match n' with
      | O => []
      | S _ => Sleep 1 :: retry_trace n'
      end
  end.

(** The value [__init__] stores in [self.port]. *)
Definition chosen_port (port : pyval) : result pyval :=
  if truthy port then int port else Ok (PyInt 6379).

(** The instance [__init__] builds once the port is known. *)
Definition instance (host port password : pyval) : RedisGateway :=
  MkRedisGateway host port password (MkRedis host port password 0 true).

(** The outcome of the expression [map_type(self.r.get(key))]. *)
Definition coerced (srv : server) (key : string) (map_type : callable)
    : result pyval :=
  match read_fault srv with
  | Some e => Raise e
  | None => call map_type (match data srv !! key with
                           | Some s => PyStr s
                           | None => PyNone
                           end)
  end.

(** Construction ended on a probe the server answered: the connection the
    instance holds was validated. *)
Definition validated (srv : server) (w w' : world) : Prop :=
  exists n : nat,
    (echoes w <= n)%nat /\ echoes w' = S n /\ echo_fault srv n = None /\
    last (history w') = Some (Echo "test_value").

(** Stores used as concrete inputs: one that gives every probe the same
    answer, and the faults redis-py raises for ECONNREFUSED, NOAUTH and
    WRONGPASS replies. *)
Definition steady (o : option exn) (d : gmap string string) : server :=
  Server (fun _ => o) None d.

Definition econnrefused : exn :=
  Exn ConnectionError
    (Some "Error 111 connecting to localhost:6379. Connection refused.") None.

Definition noauth : exn :=
  Exn AuthenticationError (Some "Authentication required.") None.

Definition wrongpass : exn :=
  Exn ResponseError
    (Some "WRONGPASS invalid username-password pair or user is disabled.") None.

Definition localhost : pyval := PyStr "localhost".

(** The conditions after which the loop goes on to the next attempt: the
    ones whose re-raised exception is a [ConnectionError]. *)
Definition retried (c : condition) : bool :=
  match c with
  | AuthRequired | Refused => true
  | _ => false
  end.

(** ** The command line *)

(** The class constants naming the environment variables. *)
Definition HOST_ENV_KEY : string := "REDIS_HOST".
Definition PORT_ENV_KEY : string := "REDIS_PORT".
Definition PASSWD_ENV_KEY : string := "REDIS_PASSWD".
Definition REDIS_FLAG_ENV_KEY : string := "REDIS_FLAG".
Definition REDIS_LIMIT_KEY_ENV_KEY : string := "REDIS_LIMIT_KEY".

(** [os.getenv(key, default)] on the environment of the process. *)
Definition getenv (environ : gmap string string) (key : string)
    (default : pyval) : pyval :=
  match environ !! key with
  | Some s => PyStr s
  | None => default
  end.

(** What [add_argument] declares: [action='store_true'], or the default
    action, which stores the value converted by [type]. *)
Inductive action : Type :=
  | StoreTrue
  | Store (type : callable).

Record argument : Type := Argument {
  flag : string;
  act : action;
  arg_default : pyval
}.

(** The parser [create_redis_parser] builds: its five options. *)
Record ArgumentParser : Type := MkParser {
  p_redis : argument;
  p_redis_host : argument;
  p_redis_port : argument;
  p_redis_passwd : argument;
  p_redis_limit_key : argument
}.

(** [create_redis_parser()]: every default is read from the environment
    when the parser is built. *)
Definition create_redis_parser (environ : gmap string string) : ArgumentParser :=
  MkParser
    (Argument "--redis" StoreTrue
       (if truthy (getenv environ REDIS_FLAG_ENV_KEY PyNone)
        then PyBool true else PyBool false))
    (Argument "--redis_host" (Store str_type)
       (getenv environ HOST_ENV_KEY (PyStr "127.0.0.1")))
    (Argument "--redis_port" (Store int_type)
       (getenv environ PORT_ENV_KEY (PyInt 6379)))
    (Argument "--redis_passwd" (Store str_type)
       (getenv environ PASSWD_ENV_KEY PyNone))
    (Argument "--redis_limit_key" (Store str_type)
       (getenv environ REDIS_LIMIT_KEY_ENV_KEY (PyStr "limit"))).

(** The value argparse stores for one option.  [given] is what the command
    line holds for it once split into options: the last value written after
    the flag, or the mere presence of a [store_true] flag.  A value from the
    command line is converted by [type]; so is a default that is a string,
    when the option is absent; any other default is stored as it is.  A
    conversion that raises makes the parser report the error and exit:
    [None]. *)
Definition convert (type : callable) (s : string) : option pyval :=
  match call type (PyStr s) with
  | Ok v => Some v
  | Raise _ => None
  end.

Definition resolve (a : argument) (given : option string) : option pyval :=
  match act a, given with
  | StoreTrue, Some _ => Some (PyBool true)
  | StoreTrue, None => Some (arg_default a)
  | Store type, Some s => convert type s
  | Store type, None =>
      match arg_default a with
      | PyStr s => convert type s
      | d => Some d
      end
  end.

(** The namespace [parse_args] returns. *)
Record Namespace : Type := MkNamespace {
  redis : pyval;
  redis_host : pyval;
  redis_port : pyval;
  redis_passwd : pyval;
  redis_limit_key : pyval
}.

(** [parser.parse_args()], on a command line that holds only declared
    options, keyed by flag. *)
Definition parse_args (parser : ArgumentParser) (cli : gmap string string)
    : option Namespace :=
  let value (a : argument) := resolve a (cli !! flag a) in
  f ← value (p_redis parser);
  h ← value (p_redis_host parser);
  p ← value (p_redis_port parser);
  pw ← value (p_redis_passwd parser);
  k ← value (p_redis_limit_key parser);
  Some (MkNamespace f h p pw k).

(** The [__main__] block from the parsed arguments up to [print(rg)]:
    construction with the default timeout of 30, then the description of
    the instance on standard output.  The polling loop that follows is not
    modelled. *)
Definition main_connect (srv : server) (args : Namespace) : M RedisGateway :=
  rg <- __init__ srv (redis_host args) (redis_port args) (redis_passwd args) 30 ;;
  _ <- print (__str__ rg) ;;
  ret rg.

(** More concrete inputs: a store that answers the probes as scripted and
    answers every later one, and the fault redis-py raises when a reply
    does not come in time. *)
Definition scripted (replies : list (option exn)) (d : gmap string string)
    : server :=
  Server (fun n => default None (replies !! n)) None d.

Definition timed_out : exn :=
  Exn TimeoutError (Some "Timeout reading from socket") None.

(** ** One probe, one iteration *)

Section Steps.

Context (srv : server) (self : RedisGateway).

(** A class is an instance of at most one of the two branches of the
    redis hierarchy the probe tells apart. *)
Lemma auth_is_connection_error (e : exn) :
  isinstance e AuthenticationError = true -> isinstance e ConnectionError = true.
Proof. destruct e as [[] m c]; vm_compute; congruence. Qed.

Lemma response_not_connection_error (e : exn) :
  isinstance e ResponseError = true -> isinstance e ConnectionError = false.
Proof. destruct e as [[] m c]; vm_compute; congruence. Qed.

(** The probe sends one ECHO and lets out the re-raised exception. *)
Lemma test_connection_run (w : world) :
  _test_connection srv self w =
    (match echo_fault srv (echoes w) with
     | None => Ok tt
     | Some e => Raise (reraised self e)
     end, sent w).
Proof.
  unfold _test_connection, try_except, r_echo, reraised, condition_of.
  destruct (echo_fault srv (echoes w)) as [e|]; [|reflexivity].
  cbn [select].
  destruct (isinstance e AuthenticationError); [reflexivity|].
  destruct (isinstance e ResponseError); [reflexivity|].
  destruct (isinstance e ConnectionError); reflexivity.
Qed.

(** The class of what the probe lets out, by condition. *)
Lemma reraised_connection_error (e : exn) :
  isinstance (reraised self e) ConnectionError =
    match condition_of (Some e) with
    | AuthRequired | Refused => true
    | _ => false
    end.
Proof.
  unfold reraised, condition_of.
  destruct (isinstance e AuthenticationError) eqn:Ha; [reflexivity|].
  destruct (isinstance e ResponseError) eqn:Hr; [reflexivity|].
  destruct (isinstance e ConnectionError) eqn:Hc; [reflexivity|exact Hc].
Qed.

(** One iteration of the retry loop. *)
Lemma attempt_run (timeout t : Z) (w : world) :
  attempt srv self timeout t w =
    match echo_fault srv (echoes w) with
    | None => (Ok Break, sent w)
    | Some e =>
        if isinstance (reraised self e) ConnectionError
        then if t >=? timeout
             then (Raise (Exn ConnectionError None (Some (reraised self e))), sent w)
             else (Ok Next, waited (sent w))
        else (Raise (reraised self e), sent w)
    end.
Proof.
  unfold attempt, try_except. rewrite test_connection_run.
  destruct (echo_fault srv (echoes w)) as [e|]; [|reflexivity].
  cbn [select].
  destruct (isinstance (reraised self e) ConnectionError); [|reflexivity].
  destruct (t >=? timeout); reflexivity.
Qed.

(** The iterations of [range(1, timeout+1)]. *)
Lemma range_from_one (timeout : Z) :
  range 1 (timeout + 1) = (fun i => 1 + Z.of_nat i) <$> seq 0 (Z.to_nat timeout).
Proof. unfold range. now replace (timeout + 1 - 1) with timeout by lia. Qed.

End Steps.

(** ** The retry loop *)

Section Loop.

Context (srv : server) (self : RedisGateway).

(** The last [n] of [N] iterations, when every probe fails with a
    condition the loop retries and the probe lets out [x] each time: [n]
    probes, a second of sleep between two of them, and the bare
    [ConnectionError] caused by [x] at the end. *)
Lemma retried_loop (x : exn) (N : nat) :
  (forall i, exists e, echo_fault srv i = Some e /\ reraised self e = x) ->
  isinstance x ConnectionError = true ->
  forall (n k : nat) (w : world),
    (k + n = N)%nat -> (0 < n)%nat ->
    for_each ((fun i => 1 + Z.of_nat i) <$> seq k n)
             (attempt srv self (Z.of_nat N)) w =
      (Raise (Exn ConnectionError None (Some x)),
       World (history w ++ retry_trace n) (echoes w + n)).
Proof.
  intros Hall Hx n.
  induction n as [|n IH]; intros k w Hk Hn; [lia|].
  cbn [seq fmap list_fmap for_each]. unfold bind at 1.
  rewrite attempt_run.
  destruct (Hall (echoes w)) as (e & -> & ->). rewrite Hx.
  destruct n as [|m].
  - replace (1 + Z.of_nat k >=? Z.of_nat N) with true
      by (symmetry; apply Z.geb_le; lia).
    unfold sent. cbn [retry_trace]. now rewrite Nat.add_1_r.
  - replace (1 + Z.of_nat k >=? Z.of_nat N) with false
      by (symmetry; rewrite Z.geb_leb; apply Z.leb_gt; lia).
    rewrite (IH (S k)) by lia.
    unfold waited, sent; cbn [history echoes retry_trace].
    rewrite <- !app_assoc. cbn [app].
    now rewrite Nat.add_succ_comm.
Qed.

(** The loop never falls through: with at least one iteration left it ends
    on a raise or on a probe the server answered. *)
Lemma loop_validates (N : nat) :
  forall (n k : nat) (w : world),
    (k + n = N)%nat -> (0 < n)%nat ->
    match for_each ((fun i => 1 + Z.of_nat i) <$> seq k n)
                   (attempt srv self (Z.of_nat N)) w with
    | (Ok _, w') => validated srv w w'
    | (Raise _, _) => True
    end.
Proof.
  intros n. induction n as [|n IH]; intros k w Hk Hn; [lia|].
  cbn [seq fmap list_fmap for_each]. unfold bind at 1.
  rewrite attempt_run.
  destruct (echo_fault srv (echoes w)) as [e|] eqn:Hreply.
  - destruct (isinstance (reraised self e) ConnectionError); [|exact I].
    destruct (1 + Z.of_nat k >=? Z.of_nat N) eqn:Hlast; [exact I|].
    rewrite Z.geb_leb in Hlast. apply Z.leb_gt in Hlast.
    specialize (IH (S k) (waited (sent w))).
    destruct (for_each _ _ (waited (sent w))) as [[[]|e'] w']; [|exact I].
    destruct IH as (i & Hi & Hecho & Hans & Hlst); [lia|lia|].
    exists i. cbn [waited sent echoes] in Hi. repeat split; auto; lia.
  - exists (echoes w). cbn [ret sent history echoes].
    repeat split; auto. apply last_snoc.
Qed.

(** A non-positive timeout leaves no iteration. *)
Lemma no_iteration (timeout : Z) (w : world) :
  timeout <= 0 -> _test_connection_with srv self timeout w = (Ok tt, w).
Proof.
  intros Hle. unfold _test_connection_with. rewrite range_from_one.
  now replace (Z.to_nat timeout) with O by lia.
Qed.

End Loop.

(** How the measures read a retry trace. *)
Lemma probes_app (l1 l2 : list event) : probes (l1 ++ l2) = (probes l1 + probes l2)%nat.
Proof. unfold probes. now rewrite filter_app, length_app. Qed.

Lemma slept_app (l1 l2 : list event) : slept (l1 ++ l2) = slept l1 + slept l2.
Proof.
  induction l1 as [|[] l1 IH]; cbn [app slept]; rewrite ?IH; lia.
Qed.

Lemma prints_app (l1 l2 : list event) : prints (l1 ++ l2) = prints l1 ++ prints l2.
Proof. unfold prints. apply omap_app. Qed.

Lemma retry_trace_measures (n : nat) :
  probes (retry_trace n) = n /\
  slept (retry_trace n) = Z.of_nat (Nat.pred n) /\
  prints (retry_trace n) = [].
Proof.
  induction n as [|[|m] IH]; [now vm_compute | now vm_compute |].
  destruct IH as (Hp & Hs & Hn).
  change (retry_trace (S (S m)))
    with ([Echo "test_value"; Sleep 1] ++ retry_trace (S m)).
  rewrite probes_app, slept_app, prints_app, Hp, Hs, Hn.
  repeat split; try reflexivity.
  change (slept [Echo "test_value"; Sleep 1]) with 1. cbn [Nat.pred]. lia.
Qed.

(** ** Construction *)

Section Construction.

Context (srv : server).

(** [__init__] is the choice of the port, the notice when it is defaulted,
    then the retry loop. *)
Lemma init_run (h p pw : pyval) (timeout : Z) (w : world) :
  __init__ srv h p pw timeout w =
    match chosen_port p with
    | Raise e => (Raise e, w)
    | Ok p' =>
        match _test_connection_with srv (instance h p' pw) timeout
                (if truthy p then w else noticed w) with
        | (Ok _, w') => (Ok (instance h p' pw), w')
        | (Raise e, w') => (Raise e, w')
        end
    end.
Proof.
  unfold __init__, chosen_port, bind at 1.
  destruct (truthy p).
  - unfold lift. destruct (int p) as [p'|e]; [|reflexivity].
    unfold bind, instance.
    now destruct (_test_connection_with _ _ _ _) as [[[]|e] w'].
  - change ((p0 <- print "Choosing Redis default port: 6379" ;;
             ret (py_or p0 (PyInt 6379))) w)
      with (Ok (PyInt 6379), noticed w).
    unfold bind, instance.
    now destruct (_test_connection_with _ _ _ _) as [[[]|e] w'].
Qed.

(** Exhausting the retries on a retried condition, from construction. *)
Lemma init_retried (x : exn) (h p p' pw : pyval) (timeout : Z) (w : world) :
  1 <= timeout ->
  chosen_port p = Ok p' ->
  (forall i, exists e,
      echo_fault srv i = Some e /\ reraised (instance h p' pw) e = x) ->
  isinstance x ConnectionError = true ->
  __init__ srv h p pw timeout w =
    (Raise (Exn ConnectionError None (Some x)),
     World (history (if truthy p then w else noticed w)
              ++ retry_trace (Z.to_nat timeout))
           (echoes w + Z.to_nat timeout)).
Proof.
  intros Ht Hp Hall Hx. rewrite init_run, Hp.
  unfold _test_connection_with. rewrite range_from_one.
  pose proof (retried_loop srv _ x (Z.to_nat timeout) Hall Hx
                (Z.to_nat timeout) 0%nat (if truthy p then w else noticed w))
    as Hloop.
  rewrite Z2Nat.id in Hloop by lia. rewrite Hloop by lia.
  now destruct (truthy p).
Qed.

(** The retry loop prints nothing. *)
Lemma loop_prints (self : RedisGateway) (timeout : Z) (l : list Z) (w : world) :
  prints (history (after (for_each l (attempt srv self timeout)) w)) =
    prints (history w).
Proof.
  unfold after. revert w.
  induction l as [|t l IH]; intros w; [reflexivity|].
  cbn [for_each]. unfold bind at 1. rewrite attempt_run.
  assert (Hs : prints (history (sent w)) = prints (history w)).
  { unfold sent; cbn [history]. rewrite prints_app. apply app_nil_r. }
  destruct (echo_fault srv (echoes w)) as [e|]; [|exact Hs].
  destruct (isinstance _ ConnectionError); [|exact Hs].
  destruct (t >=? timeout); [exact Hs|].
  rewrite IH. unfold waited; cbn [history].
  rewrite prints_app, <- Hs. apply app_nil_r.
Qed.

End Construction.

(** ** Reading *)

(** [get] sends one GET and returns, whatever happened in the [try]
    block. *)
Lemma get_run (srv : server) (self : RedisGateway) (key : string)
    (default : pyval) (map_type : callable) (w : world) :
  get srv self key default map_type w =
    (Ok (match coerced srv key map_type with
         | Ok c => py_or c default
         | Raise _ => default
         end),
     World (history w ++ [Get key]) (echoes w)).
Proof.
  unfold get, finally_return, try_except, r_get, coerced, bind, emit, lift.
  destruct (read_fault srv) as [e|].
  - unfold raise. cbn [select]. now destruct (isinstance e TypeError).
  - unfold ret at 1.
    destruct (call map_type _) as [c|e]; [reflexivity|].
    cbn [select]. now destruct (isinstance e TypeError).
Qed.

(** Every probe failing with one retried condition gives the loop the same
    re-raised exception each time. *)
Lemma steady_replies (srv : server) (self : RedisGateway) (c : condition) :
  c <> Alive ->
  (forall i, condition_of (echo_fault srv i) = c) ->
  forall i, exists e,
    echo_fault srv i = Some e /\
    reraised self e = match c with
                      | AuthRequired => auth_required
                      | InvalidCredential => invalid_credentials
                      | Refused => refused self
                      | _ => e
                      end.
Proof.
  intros Hc Hall i. specialize (Hall i).
  destruct (echo_fault srv i) as [e|]; [|now subst c].
  exists e. split; [reflexivity|]. unfold reraised. now rewrite Hall.
Qed.

(** The measures of a history that a notice and a retry trace extend. *)
Lemma retried_history_measures (p : pyval) (w : world) (n : nat) :
  let l := history (if truthy p then w else noticed w) ++ retry_trace n in
  probes l = (probes (history w) + n)%nat /\
  slept l = slept (history w) + Z.of_nat (Nat.pred n).
Proof.
  cbv zeta. destruct (retry_trace_measures n) as (Hp & Hs & _).
  rewrite probes_app, slept_app, Hp, Hs.
  destruct (truthy p); [now split|].
  unfold noticed; cbn [history]. rewrite probes_app, slept_app.
  change (probes [Print "Choosing Redis default port: 6379"]) with O.
  change (slept [Print "Choosing Redis default port: 6379"]) with 0.
  split; lia.
Qed.

(** ** Authentication failures during construction *)

(** The part of C1 the code keeps: an invalid-credential reply
    ([ResponseError]) ends construction on the first probe, without
    sleeping. *)
Lemma invalid_credential_fails_fast (srv : server) (h p p' pw : pyval)
    (timeout : Z) (w : world) :
  1 <= timeout ->
  chosen_port p = Ok p' ->
  condition_of (echo_fault srv (echoes w)) = InvalidCredential ->
  __init__ srv h p pw timeout w =
    (Raise invalid_credentials, sent (if truthy p then w else noticed w)).
Proof.
  intros Ht Hp Hc. rewrite init_run, Hp.
  unfold _test_connection_with. rewrite range_from_one.
  destruct (Z.to_nat timeout) as [|n] eqn:Hn; [lia|].
  cbn [seq fmap list_fmap for_each]. unfold bind. rewrite attempt_run.
  replace (echoes (if truthy p then w else noticed w)) with (echoes w)
    by now destruct (truthy p).
  destruct (echo_fault srv (echoes w)) as [e|]; [|discriminate].
  rewrite reraised_connection_error. unfold reraised. now rewrite Hc.
Qed.

(** What the code does on the other half of C1: an authentication-required
    reply ([AuthenticationError], a [ConnectionError] in redis-py) is
    retried like a refused connection, and what construction raises at the
    end is the bare [ConnectionError]. *)
Lemma auth_required_exhausts_retries (srv : server) (h p p' pw : pyval)
    (timeout : Z) (w : world) :
  1 <= timeout ->
  chosen_port p = Ok p' ->
  (forall i, condition_of (echo_fault srv i) = AuthRequired) ->
  __init__ srv h p pw timeout w =
    (Raise (Exn ConnectionError None (Some auth_required)),
     World (history (if truthy p then w else noticed w)
              ++ retry_trace (Z.to_nat timeout))
           (echoes w + Z.to_nat timeout)).
Proof.
  intros Ht Hp Hall.
  apply (init_retried srv auth_required h p p' pw timeout w);
    [exact Ht | exact Hp | | reflexivity].
  now apply (steady_replies srv (instance h p' pw) AuthRequired).
Qed.

(** C1 (the code breaks it).  The claim: when the liveness probe fails with
    an authentication-required condition, construction fails at once with
    the authentication error, without retry and without a second of sleep.
    The code at the default timeout of 30, against a password-protected
    store and no password: thirty probes, twenty-nine seconds of sleep, and
    a message-less [ConnectionError] whose cause is the authentication
    error. *)
Theorem auth_required_is_retried :
  outcome (__init__ (steady (Some noauth) ∅) localhost (PyInt 6379) PyNone 30) boot
    = Raise (Exn ConnectionError None (Some auth_required)) /\
  probes (history (after (__init__ (steady (Some noauth) ∅)
                            localhost (PyInt 6379) PyNone 30) boot)) = 30%nat /\
  slept (history (after (__init__ (steady (Some noauth) ∅)
                           localhost (PyInt 6379) PyNone 30) boot)) = 29.
Proof.
  unfold outcome, after.
  rewrite (auth_required_exhausts_retries _ _ _ (PyInt 6379));
    [| lia | reflexivity | intros i; reflexivity].
  repeat split; now vm_compute.
Qed.

(** ** Refused connections during construction *)

(** C2 (amended).  With [timeout = N >= 1] and every probe refused,
    construction makes exactly [N] probes, sleeps one second after each but
    the last, and raises a [ConnectionError] that carries no message: the
    "Cannot connect to host:port. Connection refused." error is its
    cause. *)
Theorem refused_exhausts_retries (srv : server) (h p p' pw : pyval)
    (timeout : Z) (w : world) :
  1 <= timeout ->
  chosen_port p = Ok p' ->
  (forall i, condition_of (echo_fault srv i) = Refused) ->
  outcome (__init__ srv h p pw timeout) w =
    Raise (Exn ConnectionError None
             (Some (Exn ConnectionError
                      (Some (refused_msg (instance h p' pw))) None))) /\
  history (after (__init__ srv h p pw timeout) w) =
    history (if truthy p then w else noticed w)
      ++ retry_trace (Z.to_nat timeout) /\
  probes (history (after (__init__ srv h p pw timeout) w)) =
    (probes (history w) + Z.to_nat timeout)%nat /\
  slept (history (after (__init__ srv h p pw timeout) w)) =
    slept (history w) + (timeout - 1).
Proof.
  intros Ht Hp Hall. unfold outcome, after.
  rewrite (init_retried srv (refused (instance h p' pw)) h p p' pw timeout w
             Ht Hp);
    [| now apply (steady_replies srv (instance h p' pw) Refused)
     | reflexivity ].
  cbn [fst snd history].
  destruct (retried_history_measures p w (Z.to_nat timeout)) as [Hpr Hsl].
  repeat split; [exact Hpr|]. rewrite Hsl. lia.
Qed.

Lemma refused_exhausts_retries_witness :
  1 <= 3 /\
  chosen_port (PyInt 6379) = Ok (PyInt 6379) /\
  (forall i, condition_of (echo_fault (steady (Some econnrefused) ∅) i) = Refused) /\
  outcome (__init__ (steady (Some econnrefused) ∅) localhost (PyInt 6379) PyNone 3) boot =
    Raise (Exn ConnectionError None
             (Some (Exn ConnectionError
                      (Some "Cannot connect to localhost:6379. Connection refused.")
                      None))) /\
  history (after (__init__ (steady (Some econnrefused) ∅)
                    localhost (PyInt 6379) PyNone 3) boot) =
    [Echo "test_value"; Sleep 1; Echo "test_value"; Sleep 1; Echo "test_value"].
Proof.
  split; [lia|]. split; [reflexivity|]. split; [intros i; reflexivity|].
  destruct (refused_exhausts_retries (steady (Some econnrefused) ∅)
              localhost (PyInt 6379) (PyInt 6379) PyNone 3 boot)
    as (Hout & Hhist & _);
    [lia | reflexivity | intros i; reflexivity |].
  split; [exact Hout | exact Hhist].
Defined.

(** C2 as stated fails: after the only attempt of [timeout = 1] against a
    refusing store, the exception construction raises has no message. *)
Lemma refused_message_counterexample :
  ~ (exists (e : exn) (w' : world),
       __init__ (steady (Some econnrefused) ∅) localhost (PyInt 6379) PyNone 1 boot
         = (Raise e, w') /\
       exn_class e = ConnectionError /\
       exn_msg e = Some "Cannot connect to localhost:6379. Connection refused.").
Proof.
  intros (e & w' & Hrun & _ & Hmsg).
  vm_compute in Hrun. inversion Hrun; subst e. discriminate Hmsg.
Qed.

(** ** The read accessor *)

(** C3.  [get] never raises: whatever the key, the default and the
    coercion, and whatever the store does, it returns a value; when the read
    or the coercion raised, that value is the default. *)
Theorem get_never_raises (srv : server) (self : RedisGateway) (key : string)
    (default : pyval) (map_type : callable) (w : world) :
  exists v : pyval,
    outcome (get srv self key default map_type) w = Ok v /\
    match coerced srv key map_type with
    | Raise _ => v = default
    | Ok _ => True
    end.
Proof.
  unfold outcome. rewrite get_run. cbn [fst].
  destruct (coerced srv key map_type) as [c|e]; eauto.
Qed.

(** C4.  [get] returns the coerced value when it is truthy and the default
    otherwise; a stored "0" read as an integer with default 100 gives
    100. *)
Theorem get_truthy_or_default :
  (forall (srv : server) (self : RedisGateway) (key : string)
          (default : pyval) (map_type : callable) (w : world),
      outcome (get srv self key default map_type) w =
        Ok (match coerced srv key map_type with
            | Ok c => if truthy c then c else default
            | Raise _ => default
            end)) /\
  (forall (replies : nat -> option exn) (others : gmap string string)
          (self : RedisGateway) (w : world),
      outcome (get (Server replies None (<["limit" := "0"]> others))
                   self "limit" (PyInt 100) int_type) w = Ok (PyInt 100)).
Proof.
  split; intros; unfold outcome; rewrite get_run; cbn [fst]; [reflexivity|].
  unfold coerced; cbn [read_fault data]. now rewrite lookup_insert_eq.
Qed.

(** C5.  With the key "limit" unset, [get("limit", 100, int)] returns 100:
    [int(None)] raises a [TypeError], which is swallowed. *)
Theorem get_unset_limit (srv : server) (self : RedisGateway) (w : world) :
  read_fault srv = None ->
  data srv !! "limit" = None ->
  outcome (get srv self "limit" (PyInt 100) int_type) w = Ok (PyInt 100) /\
  exists e : exn,
    coerced srv "limit" int_type = Raise e /\ exn_class e = TypeError.
Proof.
  intros Hup Habsent. unfold outcome. rewrite get_run. cbn [fst].
  unfold coerced. rewrite Hup, Habsent. cbn [call int_type int].
  split; [reflexivity|]. eexists; split; reflexivity.
Qed.

Lemma get_unset_limit_witness :
  read_fault (steady None ∅) = None /\
  data (steady None ∅) !! "limit" = None /\
  outcome (get (steady None ∅) (instance localhost (PyInt 6379) PyNone)
               "limit" (PyInt 100) int_type) boot = Ok (PyInt 100).
Proof.
  split; [reflexivity|]. split; [reflexivity|].
  apply (get_unset_limit (steady None ∅)
           (instance localhost (PyInt 6379) PyNone) boot); reflexivity.
Defined.

(** C6.  With "limit" holding "150", [get("limit", 100, int)] returns the
    integer 150. *)
Theorem get_limit_150 (srv : server) (self : RedisGateway) (w : world) :
  read_fault srv = None ->
  data srv !! "limit" = Some "150" ->
  outcome (get srv self "limit" (PyInt 100) int_type) w = Ok (PyInt 150).
Proof.
  intros Hup Hheld. unfold outcome. rewrite get_run. cbn [fst].
  unfold coerced. now rewrite Hup, Hheld.
Qed.

Lemma get_limit_150_witness :
  read_fault (steady None {["limit" := "150"]}) = None /\
  data (steady None {["limit" := "150"]}) !! "limit" = Some "150" /\
  outcome (get (steady None {["limit" := "150"]})
               (instance localhost (PyInt 6379) PyNone)
               "limit" (PyInt 100) int_type) boot = Ok (PyInt 150).
Proof.
  split; [reflexivity|]. split; [reflexivity|].
  apply (get_limit_150 (steady None {["limit" := "150"]})
           (instance localhost (PyInt 6379) PyNone) boot); reflexivity.
Defined.

(** C9.  With [map_type=str], [get] on an absent key returns the string
    'None', which is truthy, and not the default. *)
Theorem get_str_absent_key (srv : server) (self : RedisGateway) (key : string)
    (default : pyval) (w : world) :
  read_fault srv = None ->
  data srv !! key = None ->
  default <> PyStr "None" ->
  outcome (get srv self key default str_type) w = Ok (PyStr "None") /\
  outcome (get srv self key default str_type) w <> Ok default /\
  truthy (PyStr "None") = true.
Proof.
  intros Hup Habsent Hdiff. unfold outcome. rewrite get_run. cbn [fst].
  unfold coerced. rewrite Hup, Habsent. cbn [call str_type str].
  repeat split. intros Heq. apply Hdiff. now inversion Heq.
Qed.

Lemma get_str_absent_key_witness :
  read_fault (steady None ∅) = None /\
  data (steady None ∅) !! "limit" = None /\
  PyInt 100 <> PyStr "None" /\
  outcome (get (steady None ∅) (instance localhost (PyInt 6379) PyNone)
               "limit" (PyInt 100) str_type) boot = Ok (PyStr "None").
Proof.
  split; [reflexivity|]. split; [reflexivity|]. split; [discriminate|].
  apply (get_str_absent_key (steady None ∅)
           (instance localhost (PyInt 6379) PyNone) "limit" (PyInt 100) boot);
    [reflexivity | reflexivity | discriminate].
Defined.

(** ** What a constructed instance guarantees *)

(** C7 (amended).  For every configuration with [timeout >= 1],
    construction either raises, and yields no instance, or yields an
    instance after a probe the store answered. *)
Theorem construction_validates_or_raises (srv : server) (h p pw : pyval)
    (timeout : Z) (w : world) :
  1 <= timeout ->
  (exists e : exn, outcome (__init__ srv h p pw timeout) w = Raise e) \/
  (exists self : RedisGateway,
      outcome (__init__ srv h p pw timeout) w = Ok self /\
      validated srv w (after (__init__ srv h p pw timeout) w)).
Proof.
  intros Ht. unfold outcome, after. rewrite init_run.
  destruct (chosen_port p) as [p'|e]; [|left; eauto].
  unfold _test_connection_with. rewrite range_from_one.
  pose proof (loop_validates srv (instance h p' pw) (Z.to_nat timeout)
                (Z.to_nat timeout) 0%nat (if truthy p then w else noticed w))
    as Hloop.
  rewrite Z2Nat.id in Hloop by lia.
  destruct (for_each _ _ _) as [[[]|e] w']; [|left; eauto].
  right. eexists; split; [reflexivity|]. cbn [snd].
  destruct Hloop as (i & Hi & Hrest); [lia|lia|].
  exists i. split; [|exact Hrest]. now destruct (truthy p).
Qed.

Lemma construction_validates_or_raises_witness :
  1 <= 30 /\
  ((exists e : exn,
       outcome (__init__ (steady None ∅) localhost (PyInt 6379) PyNone 30) boot
         = Raise e) \/
   (exists self : RedisGateway,
       outcome (__init__ (steady None ∅) localhost (PyInt 6379) PyNone 30) boot
         = Ok self /\
       validated (steady None ∅) boot
         (after (__init__ (steady None ∅) localhost (PyInt 6379) PyNone 30) boot))).
Proof.
  split; [lia|].
  apply (construction_validates_or_raises (steady None ∅)
           localhost (PyInt 6379) PyNone 30 boot); lia.
Defined.

(** C7 as stated fails: with [timeout = 0] construction against a store
    that refuses every connection neither raises nor probes, and yields an
    instance all the same. *)
Lemma unprobed_instance_counterexample :
  ~ ((exists e : exn,
        outcome (__init__ (steady (Some econnrefused) ∅)
                   localhost (PyInt 6379) PyNone 0) boot = Raise e) \/
     (exists self : RedisGateway,
        outcome (__init__ (steady (Some econnrefused) ∅)
                   localhost (PyInt 6379) PyNone 0) boot = Ok self /\
        validated (steady (Some econnrefused) ∅) boot
          (after (__init__ (steady (Some econnrefused) ∅)
                    localhost (PyInt 6379) PyNone 0) boot))).
Proof.
  intros [[e Hraise] | (self & _ & (i & _ & _ & Hanswer & _))].
  - vm_compute in Hraise. discriminate Hraise.
  - cbn [steady echo_fault] in Hanswer. discriminate Hanswer.
Qed.

(** C10.  With [timeout <= 0] the loop has no iteration: whatever the store
    does, no probe is sent, and construction yields an instance as soon as
    the port is accepted, its connection never validated. *)
Theorem nonpositive_timeout_skips_probe (srv : server) (h p pw : pyval)
    (timeout : Z) (w : world) :
  timeout <= 0 ->
  (forall self : RedisGateway,
      _test_connection_with srv self timeout w = (Ok tt, w)) /\
  __init__ srv h p pw timeout w =
    match chosen_port p with
    | Ok p' => (Ok (instance h p' pw), if truthy p then w else noticed w)
    | Raise e => (Raise e, w)
    end /\
  probes (history (after (__init__ srv h p pw timeout) w)) = probes (history w) /\
  echoes (after (__init__ srv h p pw timeout) w) = echoes w.
Proof.
  intros Hle.
  assert (Hinit : __init__ srv h p pw timeout w =
                    match chosen_port p with
                    | Ok p' => (Ok (instance h p' pw),
                                if truthy p then w else noticed w)
                    | Raise e => (Raise e, w)
                    end).
  { rewrite init_run. destruct (chosen_port p) as [p'|e]; [|reflexivity].
    now rewrite no_iteration. }
  split; [intros self; now apply no_iteration|].
  split; [exact Hinit|].
  unfold after. rewrite Hinit.
  destruct (chosen_port p) as [p'|e]; [|now split].
  destruct (truthy p); [now split|].
  unfold noticed; cbn [snd history echoes]. rewrite probes_app.
  split; [apply Nat.add_0_r | reflexivity].
Qed.

Lemma nonpositive_timeout_skips_probe_witness :
  0 <= 0 /\
  __init__ (steady (Some econnrefused) ∅) localhost (PyInt 6379) PyNone 0 boot =
    (Ok (instance localhost (PyInt 6379) PyNone), boot).
Proof.
  split; [lia|].
  destruct (nonpositive_timeout_skips_probe (steady (Some econnrefused) ∅)
              localhost (PyInt 6379) PyNone 0 boot) as (_ & Hinit & _);
    [lia | exact Hinit].
Defined.

(** ** The default port *)

(** C8.  When the port is omitted or unset (falsy), [__init__] prints the
    notice once and the port of the instance is 6379; when a port is
    supplied, nothing is printed and the port of the instance is
    [int(port)]. *)
Theorem default_port_notice (srv : server) (h p pw : pyval) (timeout : Z)
    (w : world) :
  prints (history (after (__init__ srv h p pw timeout) w)) =
    prints (history w)
      ++ (if truthy p then [] else ["Choosing Redis default port: 6379"]) /\
  match outcome (__init__ srv h p pw timeout) w with
  | Ok self =>
      Ok (port self) = (if truthy p then int p else Ok (PyInt 6379)) /\
      r_port (r self) = port self
  | Raise _ => True
  end.
Proof.
  unfold outcome, after. rewrite init_run. unfold chosen_port.
  assert (Hloop : forall p' : pyval,
             prints (history (snd (_test_connection_with srv (instance h p' pw)
                                     timeout (if truthy p then w else noticed w)))) =
             prints (history w)
               ++ (if truthy p then [] else ["Choosing Redis default port: 6379"])).
  { intros p'. unfold _test_connection_with.
    pose proof (loop_prints srv (instance h p' pw) timeout
                  (range 1 (timeout + 1)) (if truthy p then w else noticed w))
      as Hquiet.
    unfold after in Hquiet. rewrite Hquiet.
    destruct (truthy p); [now rewrite app_nil_r|].
    unfold noticed; cbn [history]. now rewrite prints_app. }
  destruct (truthy p).
  - destruct (int p) as [p'|e]; [|cbn [fst snd]; now rewrite app_nil_r].
    specialize (Hloop p').
    destruct (_test_connection_with _ _ _ _) as [[[]|e] w']; now split.
  - specialize (Hloop (PyInt 6379)).
    destruct (_test_connection_with _ _ _ _) as [[[]|e] w']; now split.
Qed.

(** C8 at work: the port omitted against a live store, and a port given as
    a string. *)
Example omitted_port :
  __init__ (steady None ∅) localhost PyNone PyNone 30 boot =
    (Ok (instance localhost (PyInt 6379) PyNone),
     World [Print "Choosing Redis default port: 6379"; Echo "test_value"] 1).
Proof. now vm_compute. Qed.

Example supplied_port :
  __init__ (steady None ∅) localhost (PyStr "6380") PyNone 30 boot =
    (Ok (instance localhost (PyInt 6380) PyNone),
     World [Echo "test_value"] 1).
Proof. now vm_compute. Qed.

(** ** The builtins on concrete inputs *)

Example int_literals :
  int (PyStr " 12 ") = Ok (PyInt 12) /\
  int (PyStr "1_2") = Ok (PyInt 12) /\
  int (PyStr "-0") = Ok (PyInt 0) /\
  int (PyStr "007") = Ok (PyInt 7) /\
  int (PyBool true) = Ok (PyInt 1) /\
  int_literal "1__2" = None /\
  int_literal "_1" = None /\
  int_literal "1_" = None /\
  int_literal "+ 1" = None /\
  int_literal "" = None.
Proof. repeat split; now vm_compute. Qed.

Example str_of_instance :
  __str__ (instance localhost (PyInt 6379) PyNone) =
    "<RedisGateway instance connected to server localhost:6379>".
Proof. now vm_compute. Qed.

(** * Further properties of the gateway *)

(** ** The retry loop against a store that changes its answer *)

Section Prefix.

Context (srv : server) (self : RedisGateway).

(** What the probe lets out is either retried, and then it is one of the
    two errors the probe builds itself, or it is not a [ConnectionError],
    and then not an [AuthenticationError] either. *)
Lemma reraised_cases (e : exn) :
  (isinstance (reraised self e) ConnectionError = true /\
   (reraised self e = auth_required \/ reraised self e = refused self)) \/
  (isinstance (reraised self e) ConnectionError = false /\
   isinstance (reraised self e) AuthenticationError = false).
Proof.
  unfold reraised, condition_of.
  destruct (isinstance e AuthenticationError) eqn:Ha; [left; split; auto|].
  destruct (isinstance e ResponseError) eqn:Hr; [right; split; reflexivity|].
  destruct (isinstance e ConnectionError) eqn:Hc; [left; split; auto|].
  right. split; assumption.
Qed.

Lemma retried_reply (o : option exn) :
  retried (condition_of o) = true ->
  exists e, o = Some e /\ isinstance (reraised self e) ConnectionError = true.
Proof.
  destruct o as [e|]; [|discriminate]. intros Hr. exists e. split; [reflexivity|].
  rewrite reraised_connection_error. now destruct (condition_of (Some e)).
Qed.

Lemma unretried_reply (e : exn) :
  retried (condition_of (Some e)) = false ->
  isinstance (reraised self e) ConnectionError = false.
Proof.
  intros Hr. rewrite reraised_connection_error.
  now destruct (condition_of (Some e)).
Qed.

(** [k] retried failures, then a reply that is not retried, all within the
    iterations left: the loop stops on that reply, after [k] sleeps. *)
Lemma loop_prefix (N : nat) :
  forall (k n j : nat) (w : world),
    (j + n = N)%nat -> (k < n)%nat ->
    (forall i, (i < k)%nat ->
       retried (condition_of (echo_fault srv (echoes w + i))) = true) ->
    retried (condition_of (echo_fault srv (echoes w + k))) = false ->
    for_each ((fun i => 1 + Z.of_nat i) <$> seq j n)
             (attempt srv self (Z.of_nat N)) w =
      (match echo_fault srv (echoes w + k) with
       | None => Ok tt
       | Some e => Raise (reraised self e)
       end,
       World (history w ++ retry_trace (S k)) (echoes w + S k)).
Proof.
  intros k. induction k as [|k IH]; intros n j w Hj Hk Hpre Hstop.
  - destruct n as [|n]; [lia|].
    cbn [seq fmap list_fmap for_each]. unfold bind at 1. rewrite attempt_run.
    rewrite Nat.add_0_r in *. rewrite Nat.add_1_r.
    destruct (echo_fault srv (echoes w)) as [e|]; [|reflexivity].
    now rewrite (unretried_reply e Hstop).
  - destruct n as [|n]; [lia|].
    cbn [seq fmap list_fmap for_each]. unfold bind at 1. rewrite attempt_run.
    destruct (retried_reply _ (Hpre O ltac:(lia))) as (e & Hreply & Hconn).
    rewrite Nat.add_0_r in Hreply. rewrite Hreply, Hconn.
    replace (1 + Z.of_nat j >=? Z.of_nat N) with false
      by (symmetry; rewrite Z.geb_leb; apply Z.leb_gt; lia).
    rewrite (IH n (S j) (waited (sent w))); cbn [waited sent echoes history].
    + replace (S (echoes w) + k)%nat with (echoes w + S k)%nat by lia.
      replace (S (echoes w) + S k)%nat with (echoes w + S (S k))%nat by lia.
      rewrite <- !app_assoc. reflexivity.
    + lia.
    + lia.
    + intros i Hi.
      replace (S (echoes w) + i)%nat with (echoes w + S i)%nat by lia.
      apply Hpre. lia.
    + now replace (S (echoes w) + k)%nat with (echoes w + S k)%nat by lia.
Qed.

(** Whatever the store does, what the loop adds to the history is a retry
    trace of at most as many probes as there are iterations left. *)
Lemma loop_trace (N : nat) :
  forall (n j : nat) (w : world),
    (j + n = N)%nat ->
    exists m : nat,
      (m <= n)%nat /\ ((0 < n)%nat -> (0 < m)%nat) /\
      history (snd (for_each ((fun i => 1 + Z.of_nat i) <$> seq j n)
                             (attempt srv self (Z.of_nat N)) w)) =
        history w ++ retry_trace m.
Proof.
  intros n. induction n as [|n IH]; intros j w Hj.
  - exists O. cbn. rewrite app_nil_r. repeat split; lia.
  - cbn [seq fmap list_fmap for_each]. unfold bind at 1. rewrite attempt_run.
    assert (Hone : exists m : nat,
               (m <= S n)%nat /\ ((0 < S n)%nat -> (0 < m)%nat) /\
               history (sent w) = history w ++ retry_trace m).
    { exists 1%nat. repeat split; lia. }
    destruct (echo_fault srv (echoes w)) as [e|]; [|exact Hone].
    destruct (isinstance (reraised self e) ConnectionError); [|exact Hone].
    destruct (1 + Z.of_nat j >=? Z.of_nat N) eqn:Hlast; [exact Hone|].
    rewrite Z.geb_leb in Hlast. apply Z.leb_gt in Hlast.
    destruct (IH (S j) (waited (sent w))) as (m & Hm & Hpos & Hhist); [lia|].
    exists (S m). split; [lia|]. split; [lia|].
    rewrite Hhist. cbn [waited sent history].
    destruct m as [|m]; [lia|].
    rewrite <- !app_assoc. reflexivity.
Qed.

(** What the loop raises is never an [AuthenticationError]; a
    [ConnectionError] it raises is the bare one, caused by one of the two
    errors the probe builds. *)
Lemma loop_raises (N : nat) :
  forall (n j : nat) (w : world) (e : exn),
    (j + n = N)%nat ->
    fst (for_each ((fun i => 1 + Z.of_nat i) <$> seq j n)
                  (attempt srv self (Z.of_nat N)) w) = Raise e ->
    isinstance e AuthenticationError = false /\
    (if isinstance e ConnectionError
     then exn_msg e = None /\
          (exn_cause e = Some auth_required \/ exn_cause e = Some (refused self))
     else True).
Proof.
  intros n. induction n as [|n IH]; intros j w e Hj; [discriminate|].
  cbn [seq fmap list_fmap for_each]. unfold bind at 1. rewrite attempt_run.
  destruct (echo_fault srv (echoes w)) as [e0|]; [|discriminate].
  destruct (reraised_cases e0) as [[Hc Hx]|[Hc Ha]]; rewrite Hc.
  - destruct (1 + Z.of_nat j >=? Z.of_nat N).
    + intros [= <-]. split; [reflexivity|].
      cbn. split; [reflexivity|]. destruct Hx as [-> | ->]; auto.
    + apply IH. lia.
  - intros [= <-]. split; [exact Ha|]. now rewrite Hc.
Qed.

End Prefix.

(** Construction when the store stops failing, or fails for good, after
    [k] retried failures. *)
Lemma init_prefix (srv : server) (h p p' pw : pyval) (timeout : Z)
    (w : world) (k : nat) :
  chosen_port p = Ok p' ->
  Z.of_nat k < timeout ->
  (forall i, (i < k)%nat ->
     retried (condition_of (echo_fault srv (echoes w + i))) = true) ->
  retried (condition_of (echo_fault srv (echoes w + k))) = false ->
  __init__ srv h p pw timeout w =
    (match echo_fault srv (echoes w + k) with
     | None => Ok (instance h p' pw)
     | Some e => Raise (reraised (instance h p' pw) e)
     end,
     World (history (if truthy p then w else noticed w) ++ retry_trace (S k))
           (echoes w + S k)).
Proof.
  intros Hp Hk Hpre Hstop. rewrite init_run, Hp.
  unfold _test_connection_with. rewrite range_from_one.
  pose proof (loop_prefix srv (instance h p' pw) (Z.to_nat timeout) k
                (Z.to_nat timeout) 0%nat (if truthy p then w else noticed w))
    as Hloop.
  rewrite Z2Nat.id in Hloop by lia.
  replace (echoes (if truthy p then w else noticed w)) with (echoes w) in Hloop
    by now destruct (truthy p).
  rewrite Hloop by (auto; lia).
  now destruct (echo_fault srv (echoes w + k)).
Qed.

(** ** Construction: success after retries, failures that are not retried *)

(** X1.  When the first [k] probes fail with retried conditions and the
    next one is answered, within the timeout, construction returns the
    instance after [k + 1] probes and [k] seconds of sleep. *)
Theorem construction_succeeds_after_retries (srv : server) (h p p' pw : pyval)
    (timeout : Z) (w : world) (k : nat) :
  chosen_port p = Ok p' ->
  Z.of_nat k < timeout ->
  (forall i, (i < k)%nat ->
     retried (condition_of (echo_fault srv (echoes w + i))) = true) ->
  echo_fault srv (echoes w + k) = None ->
  outcome (__init__ srv h p pw timeout) w = Ok (instance h p' pw) /\
  history (after (__init__ srv h p pw timeout) w) =
    history (if truthy p then w else noticed w) ++ retry_trace (S k) /\
  probes (history (after (__init__ srv h p pw timeout) w)) =
    (probes (history w) + S k)%nat /\
  slept (history (after (__init__ srv h p pw timeout) w)) =
    slept (history w) + Z.of_nat k.
Proof.
  intros Hp Hk Hpre Hans. unfold outcome, after.
  rewrite (init_prefix srv h p p' pw timeout w k Hp Hk Hpre)
    by now rewrite Hans.
  rewrite Hans. cbn [fst snd history].
  destruct (retried_history_measures p w (S k)) as [Hpr Hsl].
  repeat split; assumption.
Qed.

Lemma construction_succeeds_after_retries_witness :
  outcome (__init__ (scripted [Some econnrefused; Some noauth; None] ∅)
             localhost PyNone PyNone 30) boot =
    Ok (instance localhost (PyInt 6379) PyNone) /\
  history (after (__init__ (scripted [Some econnrefused; Some noauth; None] ∅)
                    localhost PyNone PyNone 30) boot) =
    [Print "Choosing Redis default port: 6379";
     Echo "test_value"; Sleep 1; Echo "test_value"; Sleep 1; Echo "test_value"].
Proof.
  destruct (construction_succeeds_after_retries
              (scripted [Some econnrefused; Some noauth; None] ∅)
              localhost PyNone (PyInt 6379) PyNone 30 boot 2)
    as (Hout & Hhist & _).
  - reflexivity.
  - lia.
  - intros [|[|i]] Hi; [reflexivity | reflexivity | lia].
  - reflexivity.
  - split; [exact Hout | exact Hhist].
Defined.

(** X2.  An invalid-credential reply ([ResponseError]) is never retried:
    coming after [k] retried failures, within the timeout, it ends
    construction on that probe with the gateway's own [ResponseError],
    without a sleep after it. *)
Theorem construction_stops_on_invalid_credential (srv : server)
    (h p p' pw : pyval) (timeout : Z) (w : world) (k : nat) :
  chosen_port p = Ok p' ->
  Z.of_nat k < timeout ->
  (forall i, (i < k)%nat ->
     retried (condition_of (echo_fault srv (echoes w + i))) = true) ->
  condition_of (echo_fault srv (echoes w + k)) = InvalidCredential ->
  outcome (__init__ srv h p pw timeout) w =
    Raise (Exn ResponseError
             (Some "Invalid username-password pair or user is disabled") None) /\
  history (after (__init__ srv h p pw timeout) w) =
    history (if truthy p then w else noticed w) ++ retry_trace (S k).
Proof.
  intros Hp Hk Hpre Hcond. unfold outcome, after.
  rewrite (init_prefix srv h p p' pw timeout w k Hp Hk Hpre)
    by now rewrite Hcond.
  destruct (echo_fault srv (echoes w + k)) as [e|]; [|discriminate].
  unfold reraised. rewrite Hcond. split; reflexivity.
Qed.

Lemma construction_stops_on_invalid_credential_witness :
  outcome (__init__ (scripted [Some econnrefused; Some wrongpass; None] ∅)
             localhost (PyInt 6379) (PyStr "secret") 30) boot =
    Raise (Exn ResponseError
             (Some "Invalid username-password pair or user is disabled") None) /\
  history (after (__init__ (scripted [Some econnrefused; Some wrongpass; None] ∅)
                    localhost (PyInt 6379) (PyStr "secret") 30) boot) =
    [Echo "test_value"; Sleep 1; Echo "test_value"].
Proof.
  apply (construction_stops_on_invalid_credential
           (scripted [Some econnrefused; Some wrongpass; None] ∅)
           localhost (PyInt 6379) (PyInt 6379) (PyStr "secret") 30 boot 1).
  - reflexivity.
  - lia.
  - intros [|i] Hi; [reflexivity | lia].
  - reflexivity.
Defined.

(** X3.  A fault of the client that is none of the three classes the probe
    names (a [TimeoutError], say) is neither retried nor rewritten: it
    comes out of construction as the client raised it, class, message and
    cause. *)
Theorem construction_lets_other_faults_through (srv : server)
    (h p p' pw : pyval) (timeout : Z) (w : world) (k : nat) (e : exn) :
  chosen_port p = Ok p' ->
  Z.of_nat k < timeout ->
  (forall i, (i < k)%nat ->
     retried (condition_of (echo_fault srv (echoes w + i))) = true) ->
  echo_fault srv (echoes w + k) = Some e ->
  condition_of (Some e) = OtherFault ->
  outcome (__init__ srv h p pw timeout) w = Raise e /\
  history (after (__init__ srv h p pw timeout) w) =
    history (if truthy p then w else noticed w) ++ retry_trace (S k).
Proof.
  intros Hp Hk Hpre Hreply Hcond. unfold outcome, after.
  rewrite (init_prefix srv h p p' pw timeout w k Hp Hk Hpre)
    by now rewrite Hreply, Hcond.
  rewrite Hreply. unfold reraised. rewrite Hcond. split; reflexivity.
Qed.

Lemma construction_lets_other_faults_through_witness :
  outcome (__init__ (scripted [Some timed_out] ∅)
             localhost (PyInt 6379) PyNone 30) boot = Raise timed_out /\
  history (after (__init__ (scripted [Some timed_out] ∅)
                    localhost (PyInt 6379) PyNone 30) boot) =
    [Echo "test_value"].
Proof.
  apply (construction_lets_other_faults_through (scripted [Some timed_out] ∅)
           localhost (PyInt 6379) (PyInt 6379) PyNone 30 boot 0 timed_out).
  - reflexivity.
  - lia.
  - intros i Hi. lia.
  - reflexivity.
  - reflexivity.
Defined.

(** ** Construction: what holds against every store *)

(** [int] on the values of the model raises nothing but [TypeError] and
    [ValueError], and returns nothing but integers. *)
Lemma int_raises (v : pyval) (e : exn) :
  int v = Raise e -> exn_class e = TypeError \/ exn_class e = ValueError.
Proof.
  destruct v as [|b|z|s]; cbn [int]; try discriminate.
  - intros [= <-]. now left.
  - destruct (int_literal s); [discriminate|]. intros [= <-]. now right.
Qed.

Lemma int_returns (v r : pyval) : int v = Ok r -> exists z, r = PyInt z.
Proof.
  destruct v as [|b|z|s]; cbn [int]; try discriminate.
  - intros [= <-]. eauto.
  - intros [= <-]. eauto.
  - destruct (int_literal s); [|discriminate]. intros [= <-]. eauto.
Qed.

Lemma chosen_port_integer (p r : pyval) :
  chosen_port p = Ok r -> exists z, r = PyInt z.
Proof.
  unfold chosen_port. destruct (truthy p); [apply int_returns|].
  intros [= <-]. eauto.
Qed.

(** X4.  Whatever the store answers and whatever the timeout, construction
    sends at most [max(timeout, 0)] probes, and the seconds it sleeps are
    one fewer than the probes it sent: a second between two consecutive
    probes, none after the last. *)
Theorem construction_probe_and_sleep_bound (srv : server) (h p pw : pyval)
    (timeout : Z) (w : world) :
  exists m : nat,
    (m <= Z.to_nat timeout)%nat /\
    probes (history (after (__init__ srv h p pw timeout) w)) =
      (probes (history w) + m)%nat /\
    slept (history (after (__init__ srv h p pw timeout) w)) =
      slept (history w) + Z.of_nat (Nat.pred m).
Proof.
  unfold after. rewrite init_run.
  destruct (chosen_port p) as [p'|e].
  - unfold _test_connection_with. rewrite range_from_one.
    destruct (Z_le_gt_dec timeout 0) as [Hle|Hgt].
    + replace (Z.to_nat timeout) with O by lia. exists O. cbn.
      destruct (retried_history_measures p w O) as [Hpr Hsl].
      rewrite app_nil_r in Hpr, Hsl. repeat split; [lia | exact Hpr | exact Hsl].
    + pose proof (loop_trace srv (instance h p' pw) (Z.to_nat timeout)
                    (Z.to_nat timeout) 0%nat
                    (if truthy p then w else noticed w) eq_refl)
        as (m & Hm & _ & Hhist).
      rewrite Z2Nat.id in Hhist by lia.
      exists m. split; [exact Hm|].
      destruct (retried_history_measures p w m) as [Hpr Hsl].
      destruct (for_each _ _ _) as [[[]|e] w']; cbn [fst snd] in *;
        rewrite Hhist; split; assumption.
  - exists O. cbn [snd Nat.pred]. repeat split; lia.
Qed.

(** X5.  Construction never raises an [AuthenticationError]; and a
    [ConnectionError] it raises never carries a message: it is the bare
    one, whose cause is the authentication error or the connection-refused
    error the probe built. *)
Theorem construction_never_raises_authentication_error (srv : server)
    (h p pw : pyval) (timeout : Z) (w : world) (e : exn) :
  outcome (__init__ srv h p pw timeout) w = Raise e ->
  isinstance e AuthenticationError = false /\
  (if isinstance e ConnectionError
   then exn_msg e = None /\
        exists x : exn,
          exn_cause e = Some x /\ exn_cause x = None /\
          (exn_class x = AuthenticationError \/ exn_class x = ConnectionError)
   else True).
Proof.
  unfold outcome. rewrite init_run.
  destruct (chosen_port p) as [p'|e0] eqn:Hp.
  - unfold _test_connection_with. rewrite range_from_one.
    pose proof (loop_raises srv (instance h p' pw) (Z.to_nat timeout)
                  (Z.to_nat timeout) 0%nat
                  (if truthy p then w else noticed w) e eq_refl) as Hloop.
    destruct (Z_le_gt_dec timeout 0) as [Hle|Hgt].
    + replace (Z.to_nat timeout) with O by lia. discriminate.
    + rewrite Z2Nat.id in Hloop by lia.
      destruct (for_each _ _ _) as [[[]|e'] w']; cbn [fst] in *; [discriminate|].
      intros [= ->]. destruct (Hloop eq_refl) as [Ha Hc]. split; [exact Ha|].
      destruct (isinstance e ConnectionError); [|exact I].
      destruct Hc as [Hmsg Hcause]. split; [exact Hmsg|].
      destruct Hcause as [Hx|Hx]; eexists; (split; [exact Hx|]); split;
        auto.
  - cbn [fst]. intros [= ->].
    unfold chosen_port in Hp. destruct (truthy p); [|discriminate].
    destruct e as [c m x]. apply int_raises in Hp. cbn [exn_class] in Hp.
    destruct Hp as [-> | ->]; split; reflexivity || exact I.
Qed.

Lemma construction_never_raises_authentication_error_witness :
  outcome (__init__ (steady (Some noauth) ∅) localhost (PyInt 6379) PyNone 2) boot
    = Raise (Exn ConnectionError None (Some auth_required)) /\
  isinstance (Exn ConnectionError None (Some auth_required)) AuthenticationError
    = false.
Proof.
  split; [reflexivity|].
  apply (construction_never_raises_authentication_error
           (steady (Some noauth) ∅) localhost (PyInt 6379) PyNone 2 boot
           (Exn ConnectionError None (Some auth_required))).
  reflexivity.
Defined.



(** X7.  An instance that construction returns holds the host and the
    password it was given, an integer port, and a client configured with
    the same three values, database 0 and decoded responses. *)
Theorem constructed_instance_invariant (srv : server) (h p pw : pyval)
    (timeout : Z) (w : world) (self : RedisGateway) :
  outcome (__init__ srv h p pw timeout) w = Ok self ->
  exists z : Z,
    chosen_port p = Ok (PyInt z) /\
    host self = h /\ port self = PyInt z /\ password self = pw /\
    r self = MkRedis h (PyInt z) pw 0 true.
Proof.
  unfold outcome. rewrite init_run.
  destruct (chosen_port p) as [p'|e] eqn:Hp; [|discriminate].
  destruct (chosen_port_integer p p' Hp) as [z ->].
  destruct (_test_connection_with _ _ _ _) as [[[]|e] w']; [|discriminate].
  intros [= <-]. exists z. repeat split.
Qed.

Lemma constructed_instance_invariant_witness :
  outcome (__init__ (steady None ∅) localhost (PyStr " 6380 ") (PyStr "secret") 30)
    boot = Ok (instance localhost (PyInt 6380) (PyStr "secret")) /\
  exists z : Z,
    chosen_port (PyStr " 6380 ") = Ok (PyInt z) /\
    host (instance localhost (PyInt 6380) (PyStr "secret")) = localhost /\
    port (instance localhost (PyInt 6380) (PyStr "secret")) = PyInt z /\
    password (instance localhost (PyInt 6380) (PyStr "secret")) = PyStr "secret" /\
    r (instance localhost (PyInt 6380) (PyStr "secret")) =
      MkRedis localhost (PyInt z) (PyStr "secret") 0 true.
Proof.
  split; [reflexivity|].
  apply (constructed_instance_invariant (steady None ∅)
           localhost (PyStr " 6380 ") (PyStr "secret") 30 boot).
  reflexivity.
Defined.

(** X8.  The description of a constructed instance names the host as given
    and the port actually in use: the integer read from the argument, or
    6379 when the port was defaulted. *)
Theorem description_names_port_in_use (srv : server) (h p pw : pyval)
    (timeout : Z) (w : world) (self : RedisGateway) :
  outcome (__init__ srv h p pw timeout) w = Ok self ->
  exists z : Z,
    (if truthy p then int p else Ok (PyInt 6379)) = Ok (PyInt z) /\
    __str__ self =
      "<RedisGateway instance connected to server " +:+ str h +:+ ":"
        +:+ pretty z +:+ ">".
Proof.
  unfold outcome. rewrite init_run. unfold chosen_port.
  destruct (if truthy p then int p else Ok (PyInt 6379)) as [p'|e] eqn:Hp;
    [|discriminate].
  destruct (chosen_port_integer p p' Hp) as [z ->].
  destruct (_test_connection_with _ _ _ _) as [[[]|e] w']; [|discriminate].
  intros [= <-]. exists z. split; reflexivity.
Qed.

Lemma description_names_port_in_use_witness :
  outcome (__init__ (steady None ∅) PyNone (PyInt 0) PyNone 30) boot =
    Ok (instance PyNone (PyInt 6379) PyNone) /\
  __str__ (instance PyNone (PyInt 6379) PyNone) =
    "<RedisGateway instance connected to server None:6379>".
Proof.
  split; [reflexivity|].
  destruct (description_names_port_in_use (steady None ∅)
              PyNone (PyInt 0) PyNone 30 boot
              (instance PyNone (PyInt 6379) PyNone) eq_refl)
    as (z & Hz & Hstr).
  injection Hz as <-. exact Hstr.
Defined.

(** ** The read accessor: footprint and value tables *)

(** X9.  A call to [get] is one GET for the key and nothing else, whether
    the read and the coercion succeed or not: no probe, no sleep, no
    printed line. *)
Theorem get_footprint (srv : server) (self : RedisGateway) (key : string)
    (default : pyval) (map_type : callable) (w : world) :
  history (after (get srv self key default map_type) w) =
    history w ++ [Get key] /\
  echoes (after (get srv self key default map_type) w) = echoes w /\
  probes (history (after (get srv self key default map_type) w)) =
    probes (history w) /\
  slept (history (after (get srv self key default map_type) w)) =
    slept (history w) /\
  prints (history (after (get srv self key default map_type) w)) =
    prints (history w).
Proof.
  unfold after. rewrite get_run. cbn [snd history echoes].
  rewrite probes_app, slept_app, prints_app.
  change (probes [Get key]) with O. change (slept [Get key]) with 0.
  change (prints [Get key]) with (@nil string).
  rewrite app_nil_r. repeat split; lia.
Qed.

(** X10.  What [get] returns is truthy or is the default: a falsy value
    from the store never reaches the caller, and with a truthy default the
    result is always truthy. *)
Theorem get_result_truthy_or_default (srv : server) (self : RedisGateway)
    (key : string) (default : pyval) (map_type : callable) (w : world) :
  exists v : pyval,
    outcome (get srv self key default map_type) w = Ok v /\
    (truthy v = true \/ v = default) /\
    (if truthy default then truthy v = true else True).
Proof.
  unfold outcome. rewrite get_run. cbn [fst]. eexists. split; [reflexivity|].
  destruct (coerced srv key map_type) as [c|e].
  - unfold py_or. destruct (truthy c) eqn:Hc.
    + split; [now left|]. now destruct (truthy default).
    + split; [now right|]. now destruct (truthy default) eqn:Hd.
  - split; [now right|]. now destruct (truthy default) eqn:Hd.
Qed.



(** X12.  With [map_type=str] and a read that goes through, [get] returns
    the stored string when it is not empty, the string 'None' when the key
    is absent, and the default only for a stored empty string. *)
Theorem get_str_table (srv : server) (self : RedisGateway) (key : string)
    (default : pyval) (w : world) :
  read_fault srv = None ->
  outcome (get srv self key default str_type) w =
    Ok (match data srv !! key with
        | Some s => if String.eqb s "" then default else PyStr s
        | None => PyStr "None"
        end).
Proof.
  intros Hup. unfold outcome. rewrite get_run. cbn [fst].
  unfold coerced. rewrite Hup. cbn [call str_type].
  destruct (data srv !! key) as [s|]; [|reflexivity].
  unfold py_or. cbn [str truthy]. now destruct (String.eqb s "").
Qed.

Lemma get_str_table_witness :
  read_fault (steady None {["limit" := ""]}) = None /\
  outcome (get (steady None {["limit" := ""]})
               (instance localhost (PyInt 6379) PyNone)
               "limit" (PyStr "unset") str_type) boot = Ok (PyStr "unset").
Proof.
  split; [reflexivity|].
  rewrite (get_str_table (steady None {["limit" := ""]})
             (instance localhost (PyInt 6379) PyNone) "limit" (PyStr "unset") boot)
    by reflexivity.
  reflexivity.
Defined.

(** ** The command line and the environment *)

(** A successful parse resolved every option. *)
Lemma parse_args_fields (parser : ArgumentParser) (cli : gmap string string)
    (args : Namespace) :
  parse_args parser cli = Some args ->
  resolve (p_redis parser) (cli !! flag (p_redis parser)) = Some (redis args) /\
  resolve (p_redis_host parser) (cli !! flag (p_redis_host parser))
    = Some (redis_host args) /\
  resolve (p_redis_port parser) (cli !! flag (p_redis_port parser))
    = Some (redis_port args) /\
  resolve (p_redis_passwd parser) (cli !! flag (p_redis_passwd parser))
    = Some (redis_passwd args) /\
  resolve (p_redis_limit_key parser) (cli !! flag (p_redis_limit_key parser))
    = Some (redis_limit_key args).
Proof.
  unfold parse_args. intros Hparse.
  destruct (resolve (p_redis parser) _) as [f|]; [|discriminate].
  destruct (resolve (p_redis_host parser) _) as [h|]; [|discriminate].
  destruct (resolve (p_redis_port parser) _) as [p|]; [|discriminate].
  destruct (resolve (p_redis_passwd parser) _) as [pw|]; [|discriminate].
  destruct (resolve (p_redis_limit_key parser) _) as [k|]; [|discriminate].
  cbn in Hparse. injection Hparse as <-. repeat split.
Qed.

(** An option of type [str] stores the string it is given, or its default
    untouched. *)
Lemma resolve_str (name : string) (d : pyval) (given : option string) :
  resolve (Argument name (Store str_type) d) given =
    Some (match given with
          | Some s => PyStr s
          | None => d
          end).
Proof.
  unfold resolve, convert. cbn [act arg_default call str_type].
  destruct given as [s|]; [reflexivity|]. now destruct d.
Qed.

(** The port option stores an integer or makes the parse fail. *)
Lemma resolve_port (environ : gmap string string) (given : option string)
    (v : pyval) :
  resolve (p_redis_port (create_redis_parser environ)) given = Some v ->
  exists z : Z, v = PyInt z.
Proof.
  unfold resolve, convert.
  cbn [create_redis_parser p_redis_port act arg_default call int_type].
  unfold getenv.
  destruct given as [s|].
  - destruct (int (PyStr s)) as [r|e] eqn:Hint; [|discriminate].
    intros [= <-]. exact (int_returns _ _ Hint).
  - destruct (environ !! PORT_ENV_KEY) as [s|]; cbn beta iota.
    + destruct (int (PyStr s)) as [r|e] eqn:Hint; [|discriminate].
      intros [= <-]. exact (int_returns _ _ Hint).
    + intros [= <-]. eauto.
Qed.

(** The port and the host of a successful parse, as [__init__] takes
    them. *)
Lemma parsed_namespace_types_aux (environ cli : gmap string string)
    (args : Namespace) :
  parse_args (create_redis_parser environ) cli = Some args ->
  exists (z : Z) (hs : string),
    redis_port args = PyInt z /\
    chosen_port (redis_port args) = Ok (PyInt (if Z.eqb z 0 then 6379 else z)) /\
    redis_host args = PyStr hs.
Proof.
  intros Hparse.
  destruct (parse_args_fields _ _ _ Hparse) as (_ & Hh & Hp & _).
  destruct (resolve_port _ _ _ Hp) as [z Hz].
  cbn [create_redis_parser p_redis_host flag] in Hh.
  rewrite resolve_str in Hh. unfold getenv in Hh. injection Hh as Hh.
  assert (Hhs : exists hs, redis_host args = PyStr hs).
  { rewrite <- Hh. destruct (cli !! "--redis_host"); [eauto|].
    destruct (environ !! HOST_ENV_KEY); eauto. }
  destruct Hhs as [hs Hhs]. exists z, hs. repeat split; auto.
  rewrite Hz. unfold chosen_port. cbn [truthy int]. now destruct (Z.eqb z 0).
Qed.

(** X13.  Whatever the environment and the command line, the namespace of
    a successful parse holds an integer port, a string host and key, a
    boolean flag and a password that is a string or [None]; so the port the
    entry point passes on is never rejected by [__init__], which uses it
    unless it is 0. *)
Theorem parsed_namespace_types (environ cli : gmap string string)
    (args : Namespace) :
  parse_args (create_redis_parser environ) cli = Some args ->
  (exists z : Z,
      redis_port args = PyInt z /\
      chosen_port (redis_port args) =
        Ok (PyInt (if Z.eqb z 0 then 6379 else z))) /\
  (exists s : string, redis_host args = PyStr s) /\
  (exists s : string, redis_limit_key args = PyStr s) /\
  (exists b : bool, redis args = PyBool b) /\
  (redis_passwd args = PyNone \/ exists s : string, redis_passwd args = PyStr s).
Proof.
  intros Hparse.
  destruct (parse_args_fields _ _ _ Hparse) as (Hf & Hh & Hp & Hpw & Hk).
  cbn [create_redis_parser p_redis p_redis_host p_redis_passwd
       p_redis_limit_key flag] in Hf, Hh, Hpw, Hk.
  rewrite resolve_str in Hh, Hpw, Hk. unfold getenv in *.
  repeat split.
  - destruct (resolve_port _ _ _ Hp) as [z Hz]. exists z. split; [exact Hz|].
    rewrite Hz. unfold chosen_port. cbn [truthy int].
    now destruct (Z.eqb z 0).
  - injection Hh as <-. destruct (cli !! "--redis_host"); [eauto|].
    destruct (environ !! HOST_ENV_KEY); eauto.
  - injection Hk as <-. destruct (cli !! "--redis_limit_key"); [eauto|].
    destruct (environ !! REDIS_LIMIT_KEY_ENV_KEY); eauto.
  - unfold resolve in Hf. cbn [act arg_default] in Hf.
    destruct (cli !! "--redis"); injection Hf as <-; [eauto|].
    destruct (truthy _); eauto.
  - injection Hpw as <-. destruct (cli !! "--redis_passwd"); [eauto|].
    destruct (environ !! PASSWD_ENV_KEY); eauto.
Qed.

Lemma parsed_namespace_types_witness :
  parse_args (create_redis_parser {["REDIS_PORT" := " 0 "]}) ∅ =
    Some (MkNamespace (PyBool false) (PyStr "127.0.0.1") (PyInt 0) PyNone
            (PyStr "limit")) /\
  exists z : Z,
    PyInt 0 = PyInt z /\
    chosen_port (PyInt 0) = Ok (PyInt (if Z.eqb z 0 then 6379 else z)).
Proof.
  split; [reflexivity|].
  exact (proj1 (parsed_namespace_types {["REDIS_PORT" := " 0 "]} ∅
                  (MkNamespace (PyBool false) (PyStr "127.0.0.1") (PyInt 0)
                     PyNone (PyStr "limit")) eq_refl)).
Defined.

(** X14.  A port given on the command line masks [REDIS_PORT] altogether:
    whatever the variable holds, even a value [int] rejects, the parse is
    the same. *)
Theorem cli_port_masks_environment (environ cli : gmap string string)
    (s v : string) :
  cli !! "--redis_port" = Some s ->
  parse_args (create_redis_parser (<[PORT_ENV_KEY := v]> environ)) cli =
    parse_args (create_redis_parser environ) cli.
Proof.
  intros Hgiven. unfold parse_args, create_redis_parser, getenv.
  cbn [p_redis p_redis_host p_redis_port p_redis_passwd p_redis_limit_key flag].
  rewrite Hgiven.
  rewrite (lookup_insert_ne environ PORT_ENV_KEY REDIS_FLAG_ENV_KEY),
    (lookup_insert_ne environ PORT_ENV_KEY HOST_ENV_KEY),
    (lookup_insert_ne environ PORT_ENV_KEY PASSWD_ENV_KEY),
    (lookup_insert_ne environ PORT_ENV_KEY REDIS_LIMIT_KEY_ENV_KEY)
    by discriminate.
  unfold resolve. cbn [act arg_default]. reflexivity.
Qed.

Lemma cli_port_masks_environment_witness :
  parse_args (create_redis_parser {["REDIS_PORT" := "abc"]})
             {["--redis_port" := "7000"]} =
    Some (MkNamespace (PyBool false) (PyStr "127.0.0.1") (PyInt 7000) PyNone
            (PyStr "limit")).
Proof.
  change ({["REDIS_PORT" := "abc"]} : gmap string string)
    with (<[PORT_ENV_KEY := "abc"]> (∅ : gmap string string)).
  rewrite (cli_port_masks_environment ∅ {["--redis_port" := "7000"]}
             "7000" "abc") by reflexivity.
  reflexivity.
Defined.



(** X16.  The flag of a successful parse is on exactly when [--redis] is
    on the command line or [REDIS_FLAG] is set to a non-empty string,
    whatever the string says: the environment can switch the flag on, and
    the command line cannot switch it off. *)
Theorem redis_flag_on_iff (environ cli : gmap string string)
    (args : Namespace) :
  parse_args (create_redis_parser environ) cli = Some args ->
  redis args = PyBool true <->
    (is_Some (cli !! "--redis") \/
     exists s : string, environ !! REDIS_FLAG_ENV_KEY = Some s /\ s <> "").
Proof.
  intros Hparse.
  destruct (parse_args_fields _ _ _ Hparse) as (Hf & _).
  cbn [create_redis_parser p_redis flag] in Hf.
  unfold resolve, getenv in Hf. cbn [act arg_default] in Hf.
  destruct (cli !! "--redis") as [g|].
  - injection Hf as <-. split; [intros _; left; eauto | reflexivity].
  - destruct (environ !! REDIS_FLAG_ENV_KEY) as [s|]; cbn [truthy] in Hf.
    + destruct (String.eqb s "") eqn:Hs; cbn [negb] in Hf;
        injection Hf as <-.
      * apply String.eqb_eq in Hs. split; [discriminate|].
        intros [[g Hg] | (s' & [= <-] & Hne)]; [discriminate | contradiction].
      * apply String.eqb_neq in Hs. split; [|reflexivity].
        intros _. right. eauto.
    + injection Hf as <-. split; [discriminate|].
      intros [[g Hg] | (s' & Hs' & _)]; discriminate.
Qed.

Lemma redis_flag_on_iff_witness :
  parse_args (create_redis_parser {["REDIS_FLAG" := "0"]}) ∅ =
    Some (MkNamespace (PyBool true) (PyStr "127.0.0.1") (PyInt 6379) PyNone
            (PyStr "limit")) /\
  (PyBool true = PyBool true <->
     (is_Some ((∅ : gmap string string) !! "--redis") \/
      exists s : string,
        ({["REDIS_FLAG" := "0"]} : gmap string string) !! REDIS_FLAG_ENV_KEY
          = Some s /\ s <> "")).
Proof.
  split; [reflexivity|].
  exact (redis_flag_on_iff {["REDIS_FLAG" := "0"]} ∅
           (MkNamespace (PyBool true) (PyStr "127.0.0.1") (PyInt 6379) PyNone
              (PyStr "limit")) eq_refl).
Defined.

(** ** The entry point *)

(** X17.  From any successful parse, against a store that answers the
    first probe, the entry point connects with a single probe and no
    sleep, and prints the description with the parsed host and the port in
    use, after the default-port notice when the parsed port is 0. *)
Theorem main_connects_to_live_store (srv : server)
    (environ cli : gmap string string) (args : Namespace) (w : world) :
  parse_args (create_redis_parser environ) cli = Some args ->
  echo_fault srv (echoes w) = None ->
  exists (hs : string) (z : Z),
    redis_host args = PyStr hs /\
    redis_port args = PyInt z /\
    outcome (main_connect srv args) w =
      Ok (instance (PyStr hs) (PyInt (if Z.eqb z 0 then 6379 else z))
            (redis_passwd args)) /\
    history (after (main_connect srv args) w) =
      history w
        ++ (if Z.eqb z 0 then [Print "Choosing Redis default port: 6379"] else [])
        ++ [Echo "test_value";
            Print ("<RedisGateway instance connected to server " +:+ hs +:+ ":"
                     +:+ pretty (if Z.eqb z 0 then 6379 else z) +:+ ">")].
Proof.
  intros Hparse Hlive.
  destruct (parsed_namespace_types_aux environ cli args Hparse)
    as (z & hs & Hz & Hport & Hhs).
  exists hs, z. split; [exact Hhs|]. split; [exact Hz|].
  destruct args as [f h p pw k].
  cbn [redis_host redis_port redis_passwd] in *. subst h p.
  assert (Hinit :
    __init__ srv (PyStr hs) (PyInt z) pw 30 w =
      (Ok (instance (PyStr hs) (PyInt (if Z.eqb z 0 then 6379 else z)) pw),
       World (history (if truthy (PyInt z) then w else noticed w)
                ++ retry_trace 1)
             (echoes w + 1))).
  { rewrite (init_prefix srv _ _ _ _ 30 w 0 Hport);
      [| lia | intros i Hi; lia | now rewrite Nat.add_0_r, Hlive ].
    now rewrite Nat.add_0_r, Hlive. }
  unfold outcome, after, main_connect, bind.
  cbn [redis_host redis_port redis_passwd]. rewrite Hinit.
  cbn [truthy]. destruct (Z.eqb z 0); cbn; rewrite <- ?app_assoc;
    split; reflexivity.
Qed.

Lemma main_connects_to_live_store_witness :
  outcome (main_connect (steady None ∅)
             (MkNamespace (PyBool false) (PyStr "127.0.0.1") (PyInt 6379) PyNone
                (PyStr "limit"))) boot =
    Ok (instance (PyStr "127.0.0.1") (PyInt 6379) PyNone) /\
  history (after (main_connect (steady None ∅)
                    (MkNamespace (PyBool false) (PyStr "127.0.0.1") (PyInt 6379)
                       PyNone (PyStr "limit"))) boot) =
    [Echo "test_value";
     Print "<RedisGateway instance connected to server 127.0.0.1:6379>"].
Proof.
  destruct (main_connects_to_live_store (steady None ∅) ∅ ∅
              (MkNamespace (PyBool false) (PyStr "127.0.0.1") (PyInt 6379) PyNone
                 (PyStr "limit")) boot)
    as (hs & z & Hhs & Hz & Hout & Hhist); [reflexivity | reflexivity |].
  injection Hhs as <-. injection Hz as <-. split; [exact Hout | exact Hhist].
Defined.
